(** * Material Dashboard infrastructure stack

    A shallow embedding of [infrastructure/stacks/material_dashboard_stack.py]:
    the constructor of [MaterialDashboardStack] reads a configuration
    dictionary and adds constructs (bucket, origin access identity, edge
    function, hosted zone, certificate, distributions, web ACL, DNS records,
    deployment, outputs) to the stack scope, one after the other.

    The constructor is embedded as a computation in a state-and-exception
    monad: the state is the list of constructs added to the scope so far, the
    exceptions are the Python exceptions the dictionary and string operations
    of the constructor raise.  The CDK constructors themselves are library
    code; they are embedded as recording their arguments. *)

From Stdlib Require Import String Ascii List ZArith Bool Lia.
From stdpp Require Import base option list gmap strings.

#[local] Set Warnings "-register-all".
#[local] Open Scope string_scope.
#[local] Open Scope list_scope.

(** ** String primitives of Python and JavaScript *)

Module Str.

(** [s.startswith(p)]. *)
Fixpoint starts_with (s p : string) {struct p} : bool :=
  match p, s with
  | EmptyString, _ => true
  | String c p', String d s' => Ascii.eqb c d && starts_with s' p'
  | String _ _, EmptyString => false
  end.

(** [s.endswith(suf)] in Python, [s.endsWith(suf)] in JavaScript: the last
    [len(suf)] characters of [s] are [suf]. *)
Definition ends_with (s suf : string) : bool :=
  let n := String.length s in
  let k := String.length suf in
  (k <=? n)%nat && String.eqb (substring (n - k) k s) suf.

(** [s.includes(sub)] in JavaScript: [sub] starts at some position of [s]. *)
Fixpoint includes (s sub : string) : bool :=
  starts_with s sub ||
  match s with
  | EmptyString => false
  | String _ s' => includes s' sub
  end.

(** The Python slice [s[:-k]] for a positive [k]: all but the last [k]
    characters, the empty string when [s] has fewer than [k]. *)
Definition drop_last (k : nat) (s : string) : string :=
  substring 0 (String.length s - k) s.

End Str.

(** ** The edge function [SpaFunction]

    The inline JavaScript handler of the CloudFront function. *)

Record request := Request {
  method : string;
  uri : string;
  querystring : list (string * string);
  headers : list (string * string);
}.

Record event := Event { event_request : request }.

Definition set_uri (r : request) (u : string) : request :=
  {| method := method r; uri := u;
     querystring := querystring r; headers := headers r |}.

(** [function handler(event)]. *)
Definition handler (ev : event) : request :=
  let request := event_request ev in
  let uri := uri request in
  if Str.ends_with uri "/" then
    set_uri request (uri +:+ "index.html")
  else if negb (Str.includes uri ".") then
    set_uri request (uri +:+ "/index.html")
  else
    request.

(** The handler seen as a map on request paths. *)
Definition spa_rewrite (path : string) : string :=
  uri (handler (Event (Request "GET" path [] []))).

(** The final segment of a path: what follows its last ['/']. *)
Fixpoint final_segment_from (seg s : string) : string :=
  match s with
  | EmptyString => seg
  | String c s' =>
      if Ascii.eqb c "/" then final_segment_from "" s'
      else final_segment_from (seg +:+ String c "") s'
  end.

Definition final_segment (path : string) : string := final_segment_from "" path.

(** The rewriting rule in the words of the specification, which looks for a
    ['.'] in the final segment only. *)
Definition spa_rewrite_final_segment (path : string) : string :=
  if Str.ends_with path "/" then path +:+ "index.html"
  else if negb (Str.includes (final_segment path) ".") then path +:+ "/index.html"
  else path.

(** ** Python values and exceptions *)

(** What [json.load] yields for a configuration file.  Numbers are kept as
    integers: the constructor only tests a number for truth, compares it with
    a string and uses it as a dictionary key, where a float does what an
    integer does. *)
Inductive value : Type :=
| VNone
| VBool (b : bool)
| VInt (z : Z)
| VStr (s : string)
| VList (l : list value)
| VDict (d : gmap string value).

(** The exceptions the constructor can raise. *)
Inductive exn : Type :=
| KeyError (key : string)
| TypeError
| AttributeError (attr : string).

Inductive result (A : Type) : Type :=
| Ok (a : A)
| Raise (e : exn).
Arguments Ok {A} a.
Arguments Raise {A} e.

(** Truth value of an object in a condition ([if v], [v and w]). *)
Definition truthy (v : value) : bool :=
  match v with
  | VNone => false
  | VBool b => b
  | VInt z => negb (z =? 0)%Z
  | VStr s => negb (String.eqb s "")
  | VList l => match l with [] => false | _ :: _ => true end
  | VDict d => negb (bool_decide (d = ∅))
  end.

(** [v == 'literal']. *)
Definition eq_str (v : value) (lit : string) : bool :=
  match v with
  | VStr s => String.eqb s lit
  | _ => false
  end.

(** [d[key]] on a dictionary. *)
Definition getitem (d : gmap string value) (key : string) : result value :=
  match d !! key with
  | Some v => Ok v
  | None => Raise (KeyError key)
  end.

(** [d.get(key)]: [None] for a missing key. *)
Definition get (d : gmap string value) (key : string) : value :=
  match d !! key with
  | Some v => v
  | None => VNone
  end.

(** [v[key]] on an arbitrary object with a string key: only a dictionary
    accepts it. *)
Definition subscript (v : value) (key : string) : result value :=
  match v with
  | VDict d => getitem d key
  | _ => Raise TypeError
  end.

(** ** Construct properties *)

(** A reference to a construct of the stack: its construct id. *)
Definition ref := string.

(** A piece of text: a literal, a configuration value formatted in an
    f-string, or an attribute of a construct that is resolved at deployment
    ([bucket.bucket_name], [web_acl.attr_arn], ...). *)
Inductive fpart : Type :=
| FLit (s : string)
| FVal (v : value)
| FAttr (construct : ref) (attr : string).

Definition text := list fpart.

Inductive removal_policy := DESTROY | RETAIN.
Inductive block_public_access := BLOCK_ALL.
Inductive bucket_encryption := S3_MANAGED.
Inductive http_method := GET | HEAD.
Inductive duration := Days (n : Z).

Record cors_rule := CorsRule {
  allowed_methods : list http_method;
  allowed_origins : list string;
  allowed_headers : list string;
  max_age : Z;
}.

Record lifecycle_rule := LifecycleRule {
  lifecycle_id : string;
  lifecycle_enabled : bool;
  noncurrent_version_expiration : duration;
}.

Record bucket_props := BucketProps {
  bucket_name : text;
  versioned : bool;
  public_read_access : bool;
  bucket_block_public_access : block_public_access;
  bucket_removal_policy : removal_policy;
  auto_delete_objects : bool;
  encryption : bucket_encryption;
  enforce_ssl : bool;
  cors : list cors_rule;
  lifecycle_rules : list lifecycle_rule;
}.

Inductive price_class := PRICE_CLASS_100 | PRICE_CLASS_200 | PRICE_CLASS_ALL.
Inductive viewer_protocol_policy := REDIRECT_TO_HTTPS.
Inductive cache_policy := CACHING_OPTIMIZED.
Inductive origin_request_policy := CORS_S3_ORIGIN.
Inductive response_headers_policy := SECURITY_HEADERS.
Inductive function_event_type := VIEWER_REQUEST.

Record s3_origin := S3Origin {
  origin_bucket : ref;
  origin_access_identity : ref;
}.

Record function_association := FunctionAssociation {
  assoc_function : ref;
  assoc_event_type : function_event_type;
}.

Record behavior_options := BehaviorOptions {
  origin : s3_origin;
  behavior_viewer_protocol_policy : viewer_protocol_policy;
  behavior_cache_policy : cache_policy;
  behavior_origin_request_policy : origin_request_policy;
  behavior_response_headers_policy : response_headers_policy;
  function_associations : list function_association;
}.

Record error_response := ErrorResponse {
  http_status : Z;
  response_http_status : Z;
  response_page_path : string;
}.

Record distribution_props := DistributionProps {
  default_behavior : behavior_options;
  default_root_object : string;
  dist_price_class : price_class;
  dist_certificate : option ref;
  domain_names : option (list value);
  error_responses : list error_response;
  enable_logging : bool;
  web_acl_id : option text;
}.

Record visibility_config := VisibilityConfig {
  cloud_watch_metrics_enabled : bool;
  metric_name : string;
  sampled_requests_enabled : bool;
}.

Inductive default_action := DefaultAllow.
Inductive override_action := OverrideNone.
Inductive rule_action := ActionBlock.

Inductive statement :=
| ManagedRuleGroupStatement (name vendor_name : string)
| RateBasedStatement (limit : Z) (aggregate_key_type : string).

Record rule := RuleProperty {
  rule_name : string;
  priority : Z;
  rule_statement : statement;
  rule_override_action : option override_action;
  action : option rule_action;
  rule_visibility_config : visibility_config;
}.

Record web_acl_props := WebACLProps {
  acl_default_action : default_action;
  acl_scope : string;
  acl_visibility_config : visibility_config;
  rules : list rule;
}.

Record record_props := RecordProps {
  record_zone : ref;
  record_name_of : string;
  alias_target : ref;
}.

Record deployment_props := DeploymentProps {
  sources : list string;
  destination_bucket : ref;
  deployment_distribution : ref;
  distribution_paths : list string;
  prune : bool;
}.

(** What the constructor adds to the stack scope. *)
Inductive construct : Type :=
| Bucket (id : ref) (props : bucket_props)
| OriginAccessIdentity (id : ref) (comment : text)
| GrantRead (bucket : ref) (grantee : ref)
| Function (id : ref) (code : event -> request)
| HostedZone (id : ref) (hosted_zone_id zone_name : value)
| DnsValidatedCertificate (id : ref) (domain_name : value) (hosted_zone : ref)
    (region : string)
| Distribution (id : ref) (props : distribution_props)
| CfnWebACL (id : ref) (props : web_acl_props)
| ARecord (id : ref) (props : record_props)
| AaaaRecord (id : ref) (props : record_props)
| BucketDeployment (id : ref) (props : deployment_props)
| Tag (key : string) (val : value)
| CfnOutput (id : ref) (val : text) (description : string).

(** ** The construction monad *)

(** A computation runs on the constructs added so far; it yields a value or
    raises, and in both cases leaves the constructs it has added. *)
Definition M (A : Type) : Type := list construct -> result A * list construct.

Definition ret {A} (a : A) : M A := fun st => (Ok a, st).

Definition bind {A B} (m : M A) (k : A -> M B) : M B :=
  fun st =>
    match m st with
    | (Ok a, st') => k a st'
    | (Raise e, st') => (Raise e, st')
    end.

(** A pure expression that may raise. *)
Definition lift {A} (r : result A) : M A := fun st => (r, st).

(** Calling a construct's constructor with the stack as scope. *)
Definition add (c : construct) : M unit := fun st => (Ok tt, st ++ [c]).

Notation "'let*' x ':=' m 'in' k" := (bind m (fun x => k))
  (at level 10, x pattern, m at level 100, k at level 200).

(** ** The stack constructor *)

(** [price_class_map.get(price_class_input, PRICE_CLASS_100)]: the key is
    hashed first, which a list or a dictionary refuses. *)
Definition price_class_map_get (price_class_input : value) : result price_class :=
  match price_class_input with
  | VStr s =>
      if String.eqb s "PriceClass_100" then Ok PRICE_CLASS_100
      else if String.eqb s "PriceClass_200" then Ok PRICE_CLASS_200
      else if String.eqb s "PriceClass_All" then Ok PRICE_CLASS_ALL
      else Ok PRICE_CLASS_100
  | VList _ | VDict _ => Raise TypeError
  | VNone | VBool _ | VInt _ => Ok PRICE_CLASS_100
  end.

(** The record name relative to the zone, on strings:
    [record_name = domain]
    [if domain.endswith('.' + hosted_zone_name):]
    [    record_name = domain[:-(len(hosted_zone_name) + 1)]]. *)
Definition record_name (domain hosted_zone_name : string) : string :=
  if Str.ends_with domain ("." +:+ hosted_zone_name)
  then Str.drop_last (String.length hosted_zone_name + 1) domain
  else domain.

(** The same two statements on the objects read from the configuration:
    [domain.endswith] is looked up first, then ['.' + hosted_zone_name] is
    evaluated. *)
Definition record_name_value (domain hosted_zone_name : value) : result string :=
  match domain with
  | VStr d =>
      match hosted_zone_name with
      | VStr z => Ok (record_name d z)
      | _ => Raise TypeError
      end
  | _ => Raise (AttributeError "endswith")
  end.

Definition website_bucket_props (environment account : value) : bucket_props :=
  {| bucket_name :=
       [FLit "material-dashboard-"; FVal environment; FLit "-"; FVal account];
     versioned := true;
     public_read_access := false;
     bucket_block_public_access := BLOCK_ALL;
     bucket_removal_policy := if eq_str environment "dev" then DESTROY else RETAIN;
     auto_delete_objects := if eq_str environment "dev" then true else false;
     encryption := S3_MANAGED;
     enforce_ssl := true;
     cors :=
       [ {| allowed_methods := [GET; HEAD];
            allowed_origins := ["*"];
            allowed_headers := ["*"];
            max_age := 3000 |} ];
     lifecycle_rules :=
       [ {| lifecycle_id := "DeleteOldVersions";
            lifecycle_enabled := true;
            noncurrent_version_expiration :=
              Days (if eq_str environment "dev" then 30 else 90) |} ] |}.

(** The keyword arguments of the two [cloudfront.Distribution] calls; the
    second call adds [web_acl_id]. *)
Definition distribution_props_of (website_bucket origin_access_identity spa_function : ref)
    (price_class_value : price_class) (certificate : option ref) (domain : value)
    (web_acl_id : option text) : distribution_props :=
  {| default_behavior :=
       {| origin := S3Origin website_bucket origin_access_identity;
          behavior_viewer_protocol_policy := REDIRECT_TO_HTTPS;
          behavior_cache_policy := CACHING_OPTIMIZED;
          behavior_origin_request_policy := CORS_S3_ORIGIN;
          behavior_response_headers_policy := SECURITY_HEADERS;
          function_associations :=
            [ FunctionAssociation spa_function VIEWER_REQUEST ] |};
     default_root_object := "index.html";
     dist_price_class := price_class_value;
     dist_certificate := certificate;
     domain_names := match certificate with Some _ => Some [domain] | None => None end;
     error_responses :=
       [ {| http_status := 403; response_http_status := 200;
            response_page_path := "/index.html" |};
         {| http_status := 404; response_http_status := 200;
            response_page_path := "/index.html" |} ];
     enable_logging := false;
     web_acl_id := web_acl_id |}.

Definition web_acl_props_of : web_acl_props :=
  {| acl_default_action := DefaultAllow;
     acl_scope := "CLOUDFRONT";
     acl_visibility_config := VisibilityConfig true "WebACLMetric" true;
     rules :=
       [ {| rule_name := "AWSManagedRulesCommonRuleSet";
            priority := 1;
            rule_statement :=
              ManagedRuleGroupStatement "AWSManagedRulesCommonRuleSet" "AWS";
            rule_override_action := Some OverrideNone;
            action := None;
            rule_visibility_config :=
              VisibilityConfig true "AWSManagedRulesCommonRuleSetMetric" true |};
         {| rule_name := "RateLimit";
            priority := 2;
            rule_statement := RateBasedStatement 2000 "IP";
            rule_override_action := None;
            action := Some ActionBlock;
            rule_visibility_config :=
              VisibilityConfig true "RateLimitMetric" true |} ] |}.

Section Stack.

(** [Path(__file__).resolve().parents[2]], as a string. *)
Variable project_root : string.

(** [MaterialDashboardStack.__init__(self, scope, construct_id, config)],
    after [super().__init__]. *)
Definition stack_init (config : gmap string value) : M unit :=
  let* environment := lift (getitem config "environment") in
  let* region := lift (getitem config "region") in
  let* account := lift (getitem config "account") in

  let* _ := add (Bucket "WebsiteBucket" (website_bucket_props environment account)) in
  let website_bucket : ref := "WebsiteBucket" in

  let* _ := add (OriginAccessIdentity "OriginAccessIdentity"
                   [FLit "OAI for "; FVal environment; FLit " environment"]) in
  let origin_access_identity : ref := "OriginAccessIdentity" in

  let* _ := add (GrantRead website_bucket origin_access_identity) in

  let* _ := add (Function "SpaFunction" handler) in
  let spa_function : ref := "SpaFunction" in

  let domain := get config "domain" in
  let hosted_zone_id := get config "hostedZoneId" in
  let hosted_zone_name := get config "hostedZoneName" in
  let* (zone, certificate) :=
    if truthy domain && truthy hosted_zone_id && truthy hosted_zone_name then
      let* _ := add (HostedZone "HostedZone" hosted_zone_id hosted_zone_name) in
      let* _ := add (DnsValidatedCertificate "SiteCertificate" domain "HostedZone"
                       "us-east-1") in
      ret (Some ("HostedZone" : ref), Some ("SiteCertificate" : ref))
    else ret (None, None) in

  let* cloudfront := lift (getitem config "cloudfront") in
  let* price_class_input := lift (subscript cloudfront "priceClass") in
  let* price_class_value := lift (price_class_map_get price_class_input) in

  let* _ := add (Distribution "Distribution"
                   (distribution_props_of website_bucket origin_access_identity
                      spa_function price_class_value certificate domain None)) in
  let distribution : ref := "Distribution" in

  let* (distribution, web_acl) :=
    if eq_str environment "prod" then
      let* _ := add (CfnWebACL "WebACL" web_acl_props_of) in
      let web_acl : ref := "WebACL" in
      let* _ := add (Distribution "DistributionWithWAF"
                       (distribution_props_of website_bucket origin_access_identity
                          spa_function price_class_value certificate domain
                          (Some [FAttr web_acl "attr_arn"]))) in
      ret ("DistributionWithWAF" : ref, Some web_acl)
    else ret (distribution, None) in

  let* _ :=
    match zone with
    | Some zone =>
        if truthy domain then
          let* record_name := lift (record_name_value domain hosted_zone_name) in
          let* _ := add (ARecord "AliasRecordA"
                           (RecordProps zone record_name distribution)) in
          add (AaaaRecord "AliasRecordAAAA"
                 (RecordProps zone record_name distribution))
        else ret tt
    | None => ret tt
    end in

  let build_dir := project_root +:+ "/build" in
  let* _ := add (BucketDeployment "DeployWebsite"
                   {| sources := [build_dir];
                      destination_bucket := website_bucket;
                      deployment_distribution := distribution;
                      distribution_paths := ["/*"];
                      prune := false |}) in

  let* _ := add (Tag "Environment" environment) in
  let* _ := add (Tag "Project" (VStr "material-dashboard-react")) in
  let* _ := add (Tag "ManagedBy" (VStr "cdk")) in

  let* _ := add (CfnOutput "WebsiteBucketName"
                   [FAttr website_bucket "bucket_name"]
                   "S3 Bucket Name for Website Assets") in
  let* _ := add (CfnOutput "CloudFrontDistributionId"
                   [FAttr distribution "distribution_id"]
                   "CloudFront Distribution ID") in
  let* _ := add (CfnOutput "CloudFrontDomainName"
                   [FAttr distribution "distribution_domain_name"]
                   "CloudFront Distribution Domain Name") in
  let* _ := add (CfnOutput "WebsiteUrl"
                   [FLit "https://"; FAttr distribution "distribution_domain_name"]
                   "Website URL") in
  if eq_str environment "prod" then
    match web_acl with
    | Some web_acl =>
        add (CfnOutput "WebACLId" [FAttr web_acl "attr_id"] "WAF Web ACL ID")
    | None => ret tt
    end
  else ret tt.

(** Running the constructor on a fresh stack: the outcome and the
    constructs of the stack. *)
Definition synth (config : gmap string value) : result unit * list construct :=
  stack_init config [].

End Stack.

(** ** Reading a stack *)

Definition buckets (st : list construct) : list (ref * bucket_props) :=
  omap (fun c => match c with Bucket id p => Some (id, p) | _ => None end) st.

Definition hosted_zones (st : list construct) : list ref :=
  omap (fun c => match c with HostedZone id _ _ => Some id | _ => None end) st.

(** The certificates of a stack: id, domain name, hosted zone and region. *)
Definition certificates (st : list construct) : list (ref * value * ref * string) :=
  omap (fun c => match c with
                 | DnsValidatedCertificate id d z r => Some (id, d, z, r)
                 | _ => None
                 end) st.

Definition distributions (st : list construct) : list (ref * distribution_props) :=
  omap (fun c => match c with Distribution id p => Some (id, p) | _ => None end) st.

Definition web_acls (st : list construct) : list (ref * web_acl_props) :=
  omap (fun c => match c with CfnWebACL id p => Some (id, p) | _ => None end) st.

Definition a_records (st : list construct) : list (ref * record_props) :=
  omap (fun c => match c with ARecord id p => Some (id, p) | _ => None end) st.

Definition aaaa_records (st : list construct) : list (ref * record_props) :=
  omap (fun c => match c with AaaaRecord id p => Some (id, p) | _ => None end) st.

Definition deployments (st : list construct) : list (ref * deployment_props) :=
  omap (fun c => match c with BucketDeployment id p => Some (id, p) | _ => None end) st.

(** The outputs of a stack, in the order they were declared. *)
Definition outputs (st : list construct) : list (string * text) :=
  omap (fun c => match c with CfnOutput id v _ => Some (id, v) | _ => None end) st.

(** The outputs as a map from output name to value. *)
Definition output_map (st : list construct) : gmap string text :=
  list_to_map (outputs st).

(** ** Sample configurations *)

Definition cloudfront_section (price_class_name : string) : value :=
  VDict {[ "priceClass" := VStr price_class_name ]}.

Definition base_config (environment price_class_name : string) : gmap string value :=
  {[ "environment" := VStr environment;
     "region" := VStr "eu-west-1";
     "account" := VStr "123456789012";
     "cloudfront" := cloudfront_section price_class_name ]}.

Definition dev_config : gmap string value := base_config "dev" "PriceClass_100".

Definition prod_config : gmap string value := base_config "prod" "PriceClass_All".

Definition with_domain (domain zone_id zone_name : string)
    (config : gmap string value) : gmap string value :=
  <[ "domain" := VStr domain ]>
    (<[ "hostedZoneId" := VStr zone_id ]>
       (<[ "hostedZoneName" := VStr zone_name ]> config)).

Definition prod_domain_config : gmap string value :=
  with_domain "www.example.com" "Z0123456789" "example.com" prod_config.

(** Only [domain] is given, without a hosted zone. *)
Definition domain_only_config : gmap string value :=
  <[ "domain" := VStr "www.example.com" ]> dev_config.


(** ** Order of construction *)

Definition construct_id (c : construct) : option ref :=
  match c with
  | Bucket id _ | OriginAccessIdentity id _ | Function id _ | HostedZone id _ _
  | DnsValidatedCertificate id _ _ _ | Distribution id _ | CfnWebACL id _
  | ARecord id _ | AaaaRecord id _ | BucketDeployment id _ | CfnOutput id _ _ =>
      Some id
  | GrantRead _ _ | Tag _ _ => None
  end.


(** ** Identifiers and references of a stack *)

(** The construct ids of a stack, in the order of construction. *)
Definition ids (st : list construct) : list ref := omap construct_id st.

(** The constructs a piece of text takes an attribute of. *)
Definition text_refs (t : text) : list ref :=
  omap (fun p => match p with FAttr c _ => Some c | _ => None end) t.

(** The constructs that the arguments of a construct refer to. *)
Definition references (c : construct) : list ref :=
  match c with
  | Bucket _ p => text_refs (bucket_name p)
  | OriginAccessIdentity _ comment => text_refs comment
  | GrantRead bucket grantee => [bucket; grantee]
  | Function _ _ | HostedZone _ _ _ | CfnWebACL _ _ | Tag _ _ => []
  | DnsValidatedCertificate _ _ zone _ => [zone]
  | Distribution _ p =>
      origin_bucket (origin (default_behavior p))
      :: origin_access_identity (origin (default_behavior p))
      :: map assoc_function (function_associations (default_behavior p))
      ++ match dist_certificate p with Some c => [c] | None => [] end
      ++ match web_acl_id p with Some t => text_refs t | None => [] end
  | ARecord _ p | AaaaRecord _ p => [record_zone p; alias_target p]
  | BucketDeployment _ p => [destination_bucket p; deployment_distribution p]
  | CfnOutput _ v _ => text_refs v
  end.

(** Every reference of every construct of [st] is to a construct of [seen]
    or to a construct that comes earlier in [st]. *)
Fixpoint resolved_from (seen : list ref) (st : list construct) : bool :=
  match st with
  | [] => true
  | c :: st' =>
      forallb (fun r => existsb (String.eqb r) seen) (references c)
      && resolved_from (seen ++ ids [c]) st'
  end.


(** ** Configuration files *)

(** What a path of the file system holds: a JSON document, or something
    [json.load] cannot read. *)
Inductive file : Type :=
| JsonFile (v : value)
| NotJson.

(** * The script [scripts/update-config.py] *)

Module UpdateConfig.

(** The lines the script prints; the text of a caught exception is left
    out, and [ConfigurationFilesUpdated] stands for the closing lines, from
    "Configuration files updated successfully!" to the next steps. *)
Inductive line : Type :=
| ErrorGettingAccount
| Updated (config_path : string)
| ErrorUpdating (config_path : string)
| CouldNotDetermine
| UsingAccount (account_id : string)
| ConfigurationFilesUpdated.

Record world := World {
  files : gmap string file;
  stdout : list line;
}.

Definition print (l : line) (w : world) : world :=
  {| files := files w; stdout := stdout w ++ [l] |}.

(** Truth value of an optional string argument: [None] and [''] are false. *)
Definition given (x : option string) : bool :=
  match x with
  | Some s => negb (String.eqb s "")
  | None => false
  end.

(** [config[key] = x]: only a dictionary accepts it. *)
Definition setitem (config : value) (key : string) (x : value) : result value :=
  match config with
  | VDict d => Ok (VDict (<[key := x]> d))
  | _ => Raise TypeError
  end.

(** [if x: config[key] = x]. *)
Definition set_if_given (key : string) (x : option string) (config : value) :
    result value :=
  match x with
  | Some s => if negb (String.eqb s "") then setitem config key (VStr s)
              else Ok config
  | None => Ok config
  end.

(** The three updates of [update_config_file], on the loaded document. *)
Definition updated_config (config : value)
    (account_id domain certificate_arn : option string) : result value :=
  match set_if_given "account" account_id config with
  | Ok config =>
      match set_if_given "domain" domain config with
      | Ok config => set_if_given "certificateArn" certificate_arn config
      | Raise e => Raise e
      end
  | Raise e => Raise e
  end.

(** [update_config_file(config_path, account_id, domain, certificate_arn)]:
    every exception of the body is caught and reported as [False]. *)
Definition update_config_file (config_path : string)
    (account_id domain certificate_arn : option string) (w : world) :
    bool * world :=
  match files w !! config_path with
  | Some (JsonFile config) =>
      match updated_config config account_id domain certificate_arn with
      | Ok config =>
          (true,
           print (Updated config_path)
             {| files := <[config_path := JsonFile config]> (files w);
                stdout := stdout w |})
      | Raise _ => (false, print (ErrorUpdating config_path) w)
      end
  | Some NotJson | None => (false, print (ErrorUpdating config_path) w)
  end.

(** [get_aws_account_id()]; [caller_identity] is the account STS answers
    with, [None] when the call raises. *)
Definition get_aws_account_id (caller_identity : option string) (w : world) :
    option string * world :=
  match caller_identity with
  | Some account => (Some account, w)
  | None => (None, print ErrorGettingAccount w)
  end.

(** The parsed command line. *)
Record arguments := Args {
  account_id : option string;
  dev_domain : option string;
  prod_domain : option string;
  dev_certificate : option string;
  prod_certificate : option string;
}.

Definition dev_config_path (script_dir : string) : string :=
  script_dir +:+ "/config" +:+ "/dev.json".

Definition prod_config_path (script_dir : string) : string :=
  script_dir +:+ "/config" +:+ "/prod.json".

(** [main()], after [parse_args]; [script_dir] is
    [Path(__file__).parent.parent]. *)
Definition main (script_dir : string) (caller_identity : option string)
    (args : arguments) (w : world) : world :=
  let '(account, w) :=
    if given (account_id args) then (account_id args, w)
    else get_aws_account_id caller_identity w in
  match account with
  | Some account =>
      if negb (String.eqb account "") then
        let w := print (UsingAccount account) w in
        let w :=
          match files w !! dev_config_path script_dir with
          | Some _ =>
              snd (update_config_file (dev_config_path script_dir)
                     (Some account) (dev_domain args) (dev_certificate args) w)
          | None => w
          end in
        let w :=
          match files w !! prod_config_path script_dir with
          | Some _ =>
              snd (update_config_file (prod_config_path script_dir)
                     (Some account) (prod_domain args) (prod_certificate args) w)
          | None => w
          end in
        print ConfigurationFilesUpdated w
      else print CouldNotDetermine w
  | None => print CouldNotDetermine w
  end.

End UpdateConfig.

(** * The application [app.py] *)

Module App.

Inductive error : Type :=
| FileNotFoundError (config_path : string)
| JSONDecodeError (config_path : string)
| Exception (e : exn).

Inductive outcome (A : Type) : Type :=
| Done (a : A)
| Failed (e : error).
Arguments Done {A} a.
Arguments Failed {A} e.

(** [load_config(environment)] on the files of the working directory. *)
Definition load_config (fs : gmap string file) (environment : string) :
    outcome value :=
  let config_path := "config/" +:+ environment +:+ ".json" in
  match fs !! config_path with
  | Some (JsonFile config) => Done config
  | Some NotJson => Failed (JSONDecodeError config_path)
  | None => Failed (FileNotFoundError config_path)
  end.

(** The stack id ["MaterialDashboard-" + environment.title()], with the
    environment it is the title of. *)
Inductive stack_id : Type :=
| MaterialDashboard (environment : string).

(** A stack of the application: its id, the account and region of its
    environment, and its constructs. *)
Record stack := Stack {
  id : stack_id;
  env_account : value;
  env_region : value;
  constructs : list construct;
}.

Definition python {A} (r : result A) (k : A -> outcome stack) : outcome stack :=
  match r with
  | Ok a => k a
  | Raise e => Failed (Exception e)
  end.

(** [v.title()]: a string has it. *)
Definition title (v : value) : result string :=
  match v with
  | VStr s => Ok s
  | _ => Raise (AttributeError "title")
  end.

(** [main()]: the stack it synthesizes. *)
Definition main (project_root : string) (fs : gmap string file) : outcome stack :=
  match load_config fs "dev" with
  | Done dev_config =>
      python (subscript dev_config "environment") (fun environment =>
      python (title environment) (fun titled =>
      python (subscript dev_config "account") (fun account =>
      python (subscript dev_config "region") (fun region =>
      match dev_config with
      | VDict config =>
          match synth project_root config with
          | (Ok _, st) =>
              Done {| id := MaterialDashboard titled;
                      env_account := account;
                      env_region := region;
                      constructs := st |}
          | (Raise e, _) => Failed (Exception e)
          end
      | _ => Failed (Exception TypeError)
      end))))
  | Failed e => Failed e
  end.

End App.

(** * Properties *)

(** ** Strings *)

Module StrFacts.
Import Str.

Lemma app_nil_l (t : string) : "" +:+ t = t.
Proof. reflexivity. Qed.

Lemma app_cons (c : ascii) (s t : string) :
  String c s +:+ t = String c (s +:+ t).
Proof. reflexivity. Qed.

Ltac push_app := rewrite ?app_nil_l, ?app_cons in *; simpl.

Lemma length_app (s t : string) :
  String.length (s +:+ t) = String.length s + String.length t.
Proof. induction s as [|c s IH]; push_app; [reflexivity | now rewrite IH]. Qed.

Lemma app_nil_r (s : string) : s +:+ "" = s.
Proof. induction s as [|c s IH]; push_app; [reflexivity | now rewrite IH]. Qed.

Lemma app_assoc (s t u : string) : (s +:+ t) +:+ u = s +:+ (t +:+ u).
Proof. induction s as [|c s IH]; push_app; [reflexivity | now rewrite IH]. Qed.

Lemma substring_all (s : string) : substring 0 (String.length s) s = s.
Proof. induction s as [|c s IH]; simpl; [reflexivity | now rewrite IH]. Qed.

(** Skipping a prefix. *)
Lemma substring_skip (p s : string) (k : nat) :
  substring (String.length p) k (p +:+ s) = substring 0 k s.
Proof. induction p as [|c p IH]; push_app; [reflexivity | exact IH]. Qed.

(** Taking exactly a prefix. *)
Lemma substring_take (p s : string) :
  substring 0 (String.length p) (p +:+ s) = p.
Proof. induction p as [|c p IH]; push_app; [now destruct s | now rewrite IH]. Qed.

(** A string is its first [m] characters followed by the rest. *)
Lemma substring_split (s : string) (m : nat) :
  m <= String.length s ->
  substring 0 m s +:+ substring m (String.length s - m) s = s.
Proof.
  revert m; induction s as [|c s IH]; intros [|m] Hm; simpl in *;
    push_app; try reflexivity; try lia.
  - now rewrite substring_all.
  - rewrite IH by lia. reflexivity.
Qed.

Lemma starts_with_spec (s p : string) :
  starts_with s p = true <-> exists r, s = p +:+ r.
Proof.
  revert s; induction p as [|c p IH]; intros s; simpl.
  - split; [intros _; now exists s | reflexivity].
  - destruct s as [|d s].
    + split; [discriminate | intros [r Hr]; discriminate].
    + rewrite andb_true_iff, Ascii.eqb_eq, IH. split.
      * intros [-> [r ->]]. now exists r.
      * intros [r Hr]. rewrite app_cons in Hr. injection Hr as -> ->.
        split; [reflexivity | now exists r].
Qed.

Lemma includes_spec (s sub : string) :
  includes s sub = true <-> exists a b, s = a +:+ sub +:+ b.
Proof.
  induction s as [|c s IH]; simpl.
  - rewrite orb_false_r, starts_with_spec. split.
    + intros [r Hr]. now exists "", r.
    + intros [[|d a] [b Hb]]; [now exists b | discriminate].
  - rewrite orb_true_iff, IH, starts_with_spec. split.
    + intros [[r Hr] | [a [b ->]]].
      * now exists "", r.
      * now exists (String c a), b.
    + intros [[|d a] [b Hb]].
      * left. now exists b.
      * right. rewrite app_cons in Hb. injection Hb as -> ->. now exists a, b.
Qed.

Lemma ends_with_spec (s suf : string) :
  ends_with s suf = true <-> exists p, s = p +:+ suf.
Proof.
  unfold ends_with. rewrite andb_true_iff, Nat.leb_le, String.eqb_eq. split.
  - intros [Hle Hsub].
    exists (substring 0 (String.length s - String.length suf) s).
    pose proof (substring_split s (String.length s - String.length suf)) as H.
    replace (String.length s - (String.length s - String.length suf))
      with (String.length suf) in H by lia.
    rewrite Hsub in H. symmetry. apply H. lia.
  - intros [p ->]. rewrite length_app. split; [lia|].
    replace (String.length p + String.length suf - String.length suf)
      with (String.length p) by lia.
    rewrite substring_skip. apply substring_all.
Qed.

Lemma ends_with_false (s suf : string) :
  ends_with s suf = false <-> forall p, s <> p +:+ suf.
Proof.
  rewrite <- not_true_iff_false, ends_with_spec. split.
  - intros H p Hp. apply H. now exists p.
  - intros H [p Hp]. now apply (H p).
Qed.

Lemma includes_false (s sub : string) :
  includes s sub = false <-> forall a b, s <> a +:+ sub +:+ b.
Proof.
  rewrite <- not_true_iff_false, includes_spec. split.
  - intros H a b Hab. apply H. now exists a, b.
  - intros H [a [b Hab]]. now apply (H a b).
Qed.

(** Dropping a suffix that is there. *)
Lemma drop_last_app (p suf : string) :
  drop_last (String.length suf) (p +:+ suf) = p.
Proof.
  unfold drop_last. rewrite length_app.
  replace (String.length p + String.length suf - String.length suf)
    with (String.length p) by lia.
  apply substring_take.
Qed.

End StrFacts.

(** ** The edge function *)

Lemma handler_uri (r : request) : uri (handler (Event r)) = spa_rewrite (uri r).
Proof.
  unfold spa_rewrite, handler; simpl.
  destruct (Str.ends_with (uri r) "/"); [reflexivity|].
  destruct (Str.includes (uri r) "."); reflexivity.
Qed.

(** The handler touches nothing but the path. *)
Lemma handler_keeps_rest (r : request) :
  method (handler (Event r)) = method r /\
  querystring (handler (Event r)) = querystring r /\
  headers (handler (Event r)) = headers r.
Proof.
  unfold handler; simpl.
  destruct (Str.ends_with (uri r) "/"); [now repeat split|].
  destruct (Str.includes (uri r) "."); now repeat split.
Qed.

(** C1, as stated, fails: the path [/v1.0/users] has the final segment
    [users], which holds no ['.'], so the stated rule appends [/index.html];
    the handler tests the whole path for a ['.'], finds the one of [v1.0] and
    leaves the path as it is. *)
Lemma spa_rewrite_dot_in_directory :
  final_segment "/v1.0/users" = "users" /\
  Str.includes (final_segment "/v1.0/users") "." = false /\
  spa_rewrite_final_segment "/v1.0/users" = "/v1.0/users/index.html" /\
  spa_rewrite "/v1.0/users" = "/v1.0/users" /\
  spa_rewrite "/v1.0/users" <> spa_rewrite_final_segment "/v1.0/users".
Proof. repeat split; try reflexivity. discriminate. Qed.

(** C1, amended: a path ending in ['/'] gets [index.html] appended; a path
    not ending in ['/'] and holding no ['.'] anywhere gets [/index.html]
    appended; a path not ending in ['/'] that holds a ['.'] somewhere, in any
    segment, is unchanged.  So [/foo/] and [/foo] both go to
    [/foo/index.html] and [/foo.js] is unchanged. *)
Theorem spa_rewrite_cases (path : string) :
  (forall p, path = p +:+ "/" -> spa_rewrite path = path +:+ "index.html") /\
  ((forall p, path <> p +:+ "/") -> (forall a b, path <> a +:+ "." +:+ b) ->
   spa_rewrite path = path +:+ "/index.html") /\
  ((forall p, path <> p +:+ "/") -> (exists a b, path = a +:+ "." +:+ b) ->
   spa_rewrite path = path) /\
  spa_rewrite "/foo/" = "/foo/index.html" /\
  spa_rewrite "/foo" = "/foo/index.html" /\
  spa_rewrite "/foo.js" = "/foo.js".
Proof.
  unfold spa_rewrite, handler; simpl. repeat split.
  - intros p Hp.
    assert (H : Str.ends_with path "/" = true)
      by (apply StrFacts.ends_with_spec; now exists p).
    now rewrite H.
  - intros Hslash Hdot.
    apply StrFacts.ends_with_false in Hslash.
    apply StrFacts.includes_false in Hdot.
    now rewrite Hslash, Hdot.
  - intros Hslash Hdot.
    apply StrFacts.ends_with_false in Hslash.
    apply StrFacts.includes_spec in Hdot.
    now rewrite Hslash, Hdot.
Qed.

Lemma spa_rewrite_cases_witness :
  spa_rewrite "/foo/" = "/foo/" +:+ "index.html" /\
  spa_rewrite "/foo" = "/foo" +:+ "/index.html" /\
  spa_rewrite "/foo.js" = "/foo.js".
Proof.
  split; [| split].
  - apply (proj1 (spa_rewrite_cases "/foo/") "/foo"). reflexivity.
  - apply (proj1 (proj2 (spa_rewrite_cases "/foo"))).
    + apply StrFacts.ends_with_false. reflexivity.
    + apply StrFacts.includes_false. reflexivity.
  - apply (proj1 (proj2 (proj2 (spa_rewrite_cases "/foo.js")))).
    + apply StrFacts.ends_with_false. reflexivity.
    + exists "/foo", "js". reflexivity.
Defined.

(** ** The record name *)

(** C7: [record_name] strips the trailing ['.' + zone] from a domain that
    ends with it and returns any other domain unchanged. *)
Theorem record_name_strips_zone_suffix (domain zone : string) :
  (forall label, domain = label +:+ "." +:+ zone -> record_name domain zone = label) /\
  ((forall label, domain <> label +:+ "." +:+ zone) -> record_name domain zone = domain) /\
  record_name "dev.example.com" "example.com" = "dev" /\
  record_name "example.com" "other.com" = "example.com".
Proof.
  unfold record_name. repeat split.
  - intros label ->.
    assert (H : Str.ends_with (label +:+ "." +:+ zone) ("." +:+ zone) = true)
      by (apply StrFacts.ends_with_spec; now exists label).
    rewrite H.
    replace (String.length zone + 1) with (String.length ("." +:+ zone))
      by (rewrite StrFacts.length_app; simpl; lia).
    apply StrFacts.drop_last_app.
  - intros H. apply StrFacts.ends_with_false in H. now rewrite H.
Qed.

Lemma record_name_strips_zone_suffix_witness :
  record_name "dev.example.com" "example.com" = "dev" /\
  record_name "example.com" "other.com" = "example.com".
Proof.
  split.
  - apply (proj1 (record_name_strips_zone_suffix "dev.example.com" "example.com")).
    reflexivity.
  - apply (proj1 (proj2 (record_name_strips_zone_suffix "example.com" "other.com"))).
    apply StrFacts.ends_with_false. reflexivity.
Defined.

(** ** Running the constructor *)

Lemma eq_str_true (v : value) (lit : string) : eq_str v lit = true <-> v = VStr lit.
Proof.
  destruct v; simpl; try (split; [discriminate | intros H; discriminate]).
  rewrite String.eqb_eq. split; [now intros -> | now intros [= ->]].
Qed.

Lemma eq_str_false (v : value) (lit : string) : eq_str v lit = false <-> v <> VStr lit.
Proof. rewrite <- not_true_iff_false, eq_str_true. reflexivity. Qed.

(** One step of the constructor: the monad operations and the dictionary
    reads, leaving the tests on configuration values in place. *)
Ltac unfold_stack :=
  cbv beta iota zeta delta
    [synth stack_init bind lift ret add getitem subscript app andb].

(** Facts on hand decide the tests they speak of. *)
Ltac use_facts :=
  repeat match goal with
         | H : ?x = _ |- context [match ?x with _ => _ end] => rewrite H
         end.

(** The next undecided test of the constructor. *)
Ltac case_stack :=
  match goal with
  | |- context [match ?x with _ => _ end] =>
      lazymatch x with
      | context [match _ with _ => _ end] => fail
      | _ => destruct x eqn:?
      end
  end.

Ltac run_stack := unfold_stack; use_facts; unfold_stack.

Ltac split_stack := run_stack; repeat (case_stack; run_stack).

(** The outcome of a run, once it is known to have succeeded. *)
Ltac ok_stack H :=
  revert H; split_stack; intros H; try discriminate H;
  injection H as <-.



(** The constructor reads the configuration through seven keys only. *)
Lemma synth_reads (project_root : string) (config config' : gmap string value) :
  config !! "environment" = config' !! "environment" ->
  config !! "region" = config' !! "region" ->
  config !! "account" = config' !! "account" ->
  config !! "domain" = config' !! "domain" ->
  config !! "hostedZoneId" = config' !! "hostedZoneId" ->
  config !! "hostedZoneName" = config' !! "hostedZoneName" ->
  config !! "cloudfront" = config' !! "cloudfront" ->
  synth project_root config = synth project_root config'.
Proof.
  intros He Hr Ha Hd Hi Hn Hc. unfold synth, stack_init, getitem, get.
  rewrite He, Hr, Ha, Hd, Hi, Hn, Hc. reflexivity.
Qed.

(** ** The storage bucket *)

(** The bucket of a stack: one, as soon as the mandatory keys are there,
    whatever happens later. *)
Lemma bucket_of_stack (project_root : string) (config : gmap string value)
    (environment region account : value) :
  config !! "environment" = Some environment ->
  config !! "region" = Some region ->
  config !! "account" = Some account ->
  buckets (snd (synth project_root config))
  = [("WebsiteBucket", website_bucket_props environment account)].
Proof. intros He Hr Ha. split_stack; reflexivity. Qed.

(** C6: the bucket is destroyed on teardown, with its contents deleted and
    noncurrent versions expiring after 30 days, when [environment] is
    ['dev']; for every other value of [environment] it is retained, its
    contents are not deleted and noncurrent versions expire after 90 days. *)
Theorem retention_policy_by_environment (project_root : string)
    (config : gmap string value) (environment region account : value) :
  config !! "environment" = Some environment ->
  config !! "region" = Some region ->
  config !! "account" = Some account ->
  exists props,
    buckets (snd (synth project_root config)) = [("WebsiteBucket", props)] /\
    (environment = VStr "dev" ->
     bucket_removal_policy props = DESTROY /\
     auto_delete_objects props = true /\
     map noncurrent_version_expiration (lifecycle_rules props) = [Days 30]) /\
    (environment <> VStr "dev" ->
     bucket_removal_policy props = RETAIN /\
     auto_delete_objects props = false /\
     map noncurrent_version_expiration (lifecycle_rules props) = [Days 90]).
Proof.
  intros He Hr Ha. exists (website_bucket_props environment account).
  split; [now apply bucket_of_stack with region|].
  unfold website_bucket_props; simpl. split.
  - intros Hdev. apply eq_str_true in Hdev. rewrite Hdev. now repeat split.
  - intros Hdev. apply eq_str_false in Hdev. rewrite Hdev. now repeat split.
Qed.

Lemma retention_policy_by_environment_witness :
  (exists props,
     buckets (snd (synth "/repo" dev_config)) = [("WebsiteBucket", props)] /\
     bucket_removal_policy props = DESTROY /\
     auto_delete_objects props = true /\
     map noncurrent_version_expiration (lifecycle_rules props) = [Days 30]) /\
  (exists props,
     buckets (snd (synth "/repo" prod_config)) = [("WebsiteBucket", props)] /\
     bucket_removal_policy props = RETAIN /\
     auto_delete_objects props = false /\
     map noncurrent_version_expiration (lifecycle_rules props) = [Days 90]).
Proof.
  split.
  - destruct (retention_policy_by_environment "/repo" dev_config
                (VStr "dev") (VStr "eu-west-1") (VStr "123456789012"))
      as (props & Hb & Hdev & _); [reflexivity..|].
    exists props. split; [exact Hb | now apply Hdev].
  - destruct (retention_policy_by_environment "/repo" prod_config
                (VStr "prod") (VStr "eu-west-1") (VStr "123456789012"))
      as (props & Hb & _ & Hother); [reflexivity..|].
    exists props. split; [exact Hb | now apply Hother].
Defined.

(** ** Validation of the configuration *)








(** ** The firewall *)



(** ** The distributions *)

(** The distributions of a stack that was built: one for every environment
    but ['prod'], two for ['prod']. *)
Lemma distributions_of_stack (project_root : string) (config : gmap string value)
    (st : list construct) (environment : value) :
  synth project_root config = (Ok tt, st) ->
  config !! "environment" = Some environment ->
  map fst (distributions st)
  = if eq_str environment "prod" then ["Distribution"; "DistributionWithWAF"]
    else ["Distribution"].
Proof.
  intros H He. destruct (eq_str environment "prod") eqn:Hprod;
    ok_stack H; try congruence; reflexivity.
Qed.


(** ** The certificate *)




(** ** The outputs *)





(** ** Who refers to which distribution *)




(** ** The price class *)

Lemma price_class_unrecognized (name : string) :
  name <> "PriceClass_100" -> name <> "PriceClass_200" ->
  name <> "PriceClass_All" ->
  price_class_map_get (VStr name) = Ok PRICE_CLASS_100.
Proof.
  intros H1 H2 H3. unfold price_class_map_get.
  apply String.eqb_neq in H1, H2, H3. now rewrite H1, H2, H3.
Qed.

Lemma getitem_insert_eq (config : gmap string value) (key : string) (v : value) :
  getitem (<[key := v]> config) key = Ok v.
Proof. unfold getitem. now rewrite lookup_insert_eq. Qed.

Lemma getitem_insert_ne (config : gmap string value) (key key' : string)
    (v : value) :
  key <> key' -> getitem (<[key := v]> config) key' = getitem config key'.
Proof. intros H. unfold getitem. now rewrite lookup_insert_ne. Qed.

Lemma get_insert_ne (config : gmap string value) (key key' : string) (v : value) :
  key <> key' -> get (<[key := v]> config) key' = get config key'.
Proof. intros H. unfold get. now rewrite lookup_insert_ne. Qed.

(** Naming an unrecognized price class or naming [PriceClass_100] makes no
    difference to what the constructor does. *)
Lemma synth_unrecognized_price_class (project_root : string)
    (config d : gmap string value) (name : string) :
  name <> "PriceClass_100" -> name <> "PriceClass_200" ->
  name <> "PriceClass_All" ->
  config !! "cloudfront" = Some (VDict d) ->
  d !! "priceClass" = Some (VStr name) ->
  synth project_root config
  = synth project_root
      (<["cloudfront" := VDict (<["priceClass" := VStr "PriceClass_100"]> d)]>
         config).
Proof.
  intros H1 H2 H3 Hc Hp.
  pose proof (price_class_unrecognized name H1 H2 H3) as Hget.
  assert (Hcf : getitem config "cloudfront" = Ok (VDict d))
    by (unfold getitem; now rewrite Hc).
  assert (Hpc : getitem d "priceClass" = Ok (VStr name))
    by (unfold getitem; now rewrite Hp).
  unfold synth, stack_init.
  rewrite !getitem_insert_ne by discriminate.
  rewrite !get_insert_ne by discriminate.
  rewrite getitem_insert_eq, Hcf.
  cbv beta iota zeta delta [bind lift ret subscript].
  rewrite getitem_insert_eq, Hpc.
  cbv beta iota zeta.
  rewrite Hget. reflexivity.
Qed.

(** C5, as stated, fails on its last part: no signal tells the fallback.
    With the unrecognized name [bogus] the constructor ends as it does with
    [PriceClass_100]: same outcome, same constructs, nothing more. *)
Lemma unrecognized_price_class_is_silent :
  price_class_map_get (VStr "bogus") = Ok PRICE_CLASS_100 /\
  synth "/repo" (base_config "dev" "bogus")
  = synth "/repo" (base_config "dev" "PriceClass_100").
Proof. split; reflexivity. Qed.

(** C5, amended: the three recognized names resolve to their price classes;
    every other string resolves, without an error, to [PRICE_CLASS_100], and
    silently so: the constructor does exactly what it does when the
    configuration names [PriceClass_100]. *)
Theorem price_class_resolution (name : string) :
  price_class_map_get (VStr "PriceClass_100") = Ok PRICE_CLASS_100 /\
  price_class_map_get (VStr "PriceClass_200") = Ok PRICE_CLASS_200 /\
  price_class_map_get (VStr "PriceClass_All") = Ok PRICE_CLASS_ALL /\
  (name <> "PriceClass_100" -> name <> "PriceClass_200" ->
   name <> "PriceClass_All" ->
   price_class_map_get (VStr name) = Ok PRICE_CLASS_100 /\
   forall project_root (config d : gmap string value),
     config !! "cloudfront" = Some (VDict d) ->
     d !! "priceClass" = Some (VStr name) ->
     synth project_root config
     = synth project_root
         (<["cloudfront" := VDict (<["priceClass" := VStr "PriceClass_100"]> d)]>
            config)).
Proof.
  repeat (split; [reflexivity|]). intros H1 H2 H3. split.
  - now apply price_class_unrecognized.
  - intros project_root config d. now apply synth_unrecognized_price_class.
Qed.

Lemma price_class_resolution_witness :
  price_class_map_get (VStr "bogus") = Ok PRICE_CLASS_100 /\
  synth "/repo" (base_config "prod" "bogus")
  = synth "/repo"
      (<["cloudfront" :=
           VDict (<["priceClass" := VStr "PriceClass_100"]>
                    {["priceClass" := VStr "bogus"]})]>
         (base_config "prod" "bogus")).
Proof.
  destruct (price_class_resolution "bogus") as (_ & _ & _ & H).
  destruct H as (Hget & Hsilent); [discriminate..|].
  split; [exact Hget|].
  apply (Hsilent "/repo" (base_config "prod" "bogus")
           {["priceClass" := VStr "bogus"]}); reflexivity.
Defined.

(** * Further properties *)

(** ** More on strings *)

Lemma substring_skip_more (p s : string) (m k : nat) :
  substring (String.length p + m) k (p +:+ s) = substring m k s.
Proof.
  induction p as [|c p IH]; [reflexivity|].
  rewrite StrFacts.app_cons. simpl. exact IH.
Qed.

(** Whether [s +:+ t] ends with [suf] is decided by [t] when [suf] is no
    longer than [t]. *)
Lemma ends_with_app (s t suf : string) :
  String.length suf <= String.length t ->
  Str.ends_with (s +:+ t) suf = Str.ends_with t suf.
Proof.
  intros Hlen. unfold Str.ends_with. rewrite StrFacts.length_app.
  replace (String.length s + String.length t - String.length suf)
    with (String.length s + (String.length t - String.length suf)) by lia.
  rewrite substring_skip_more.
  destruct (Nat.leb_spec (String.length suf) (String.length t)); [|lia].
  destruct (Nat.leb_spec (String.length suf) (String.length s + String.length t));
    [reflexivity | lia].
Qed.

Lemma includes_app_r (s t sub : string) :
  Str.includes t sub = true -> Str.includes (s +:+ t) sub = true.
Proof.
  rewrite !StrFacts.includes_spec. intros (a & b & ->).
  exists (s +:+ a), b. now rewrite StrFacts.app_assoc.
Qed.

(** ** More on the edge function *)

(** The three ways the handler leaves a path. *)
Lemma spa_rewrite_result (path : string) :
  spa_rewrite path = path +:+ "index.html" \/
  spa_rewrite path = path +:+ "/index.html" \/
  (spa_rewrite path = path /\ Str.ends_with path "/" = false /\
   Str.includes path "." = true).
Proof.
  unfold spa_rewrite, handler; simpl.
  destruct (Str.ends_with path "/"); [now left|].
  destruct (Str.includes path "."); [right; right | right; left]; auto.
Qed.

Lemma spa_rewrite_of_file (path : string) :
  Str.ends_with path "/" = false -> Str.includes path "." = true ->
  spa_rewrite path = path.
Proof. intros H1 H2. unfold spa_rewrite, handler; simpl. now rewrite H1, H2. Qed.

(** X1: rewriting a rewritten path changes nothing: the handler sends every
    path to a path it leaves alone. *)
Theorem spa_rewrite_idempotent (path : string) :
  spa_rewrite (spa_rewrite path) = spa_rewrite path.
Proof.
  destruct (spa_rewrite_result path) as [-> | [-> | (-> & Hs & Hd)]].
  - apply spa_rewrite_of_file.
    + now rewrite ends_with_app by (simpl; lia).
    + now apply includes_app_r.
  - apply spa_rewrite_of_file.
    + now rewrite ends_with_app by (simpl; lia).
    + now apply includes_app_r.
  - now apply spa_rewrite_of_file.
Qed.

(** X2: the path the handler returns always holds a ['.'] and never ends in
    ['/']: the origin is always asked for a file. *)
Theorem spa_rewrite_names_a_file (path : string) :
  (exists a b, spa_rewrite path = a +:+ "." +:+ b) /\
  (forall p, spa_rewrite path <> p +:+ "/").
Proof.
  rewrite <- StrFacts.includes_spec, <- StrFacts.ends_with_false.
  destruct (spa_rewrite_result path) as [-> | [-> | (-> & Hs & Hd)]].
  - split; [now apply includes_app_r | now rewrite ends_with_app by (simpl; lia)].
  - split; [now apply includes_app_r | now rewrite ends_with_app by (simpl; lia)].
  - now split.
Qed.

(** ** More on the record name *)

(** X3: a domain that is not longer than the zone name is returned as it is;
    in particular the apex, where the domain is the zone name itself, is not
    stripped to the empty name. *)
Theorem record_name_of_short_domain (domain zone : string) :
  String.length domain <= String.length zone ->
  record_name domain zone = domain.
Proof.
  intros Hlen. unfold record_name, Str.ends_with.
  rewrite StrFacts.length_app. simpl String.length.
  destruct (Nat.leb_spec (1 + String.length zone) (String.length domain));
    [lia | reflexivity].
Qed.

Lemma record_name_of_short_domain_witness :
  record_name "example.com" "example.com" = "example.com".
Proof.
  apply (record_name_of_short_domain "example.com" "example.com" (le_n _)).
Defined.

(** ** Invariants of the stack *)

(** X4: whatever the configuration, and whether the constructor ends or
    raises, no two constructs of the stack have the same id. *)
Theorem construct_ids_are_distinct (project_root : string)
    (config : gmap string value) :
  NoDup (ids (snd (synth project_root config))).
Proof.
  split_stack; apply (bool_decide_unpack _); vm_compute; exact I.
Qed.

Lemma resolved_from_sound (seen : list ref) (st pre post : list construct)
    (c : construct) (r : ref) :
  resolved_from seen st = true ->
  st = pre ++ c :: post ->
  In r (references c) ->
  In r (seen ++ ids pre).
Proof.
  revert seen pre. induction st as [|c' st IH]; intros seen pre Hres Hst Hr.
  - now destruct pre.
  - simpl in Hres. apply andb_true_iff in Hres as [Hc Hrest].
    destruct pre as [|c'' pre]; simpl in Hst; injection Hst as -> ->.
    + rewrite forallb_forall in Hc. specialize (Hc r Hr).
      apply existsb_exists in Hc as (r' & Hin & Heq).
      apply String.eqb_eq in Heq as ->.
      unfold ids; simpl. now rewrite app_nil_r.
    + specialize (IH _ pre Hrest eq_refl Hr).
      rewrite <- app_assoc in IH. unfold ids in *. simpl in *.
      destruct (construct_id c''); exact IH.
Qed.

Lemma stack_is_resolved (project_root : string) (config : gmap string value) :
  resolved_from [] (snd (synth project_root config)) = true.
Proof. split_stack; reflexivity. Qed.

(** X5: every construct refers only to constructs built before it: the
    bucket and the identity before the grant, the zone before the
    certificate, bucket, identity, function, certificate and web ACL before
    the distribution that uses them, and so on up to the outputs; this holds
    of partial stacks too. *)
Theorem references_resolve_to_earlier_constructs (project_root : string)
    (config : gmap string value) (pre post : list construct) (c : construct)
    (r : ref) :
  snd (synth project_root config) = pre ++ c :: post ->
  In r (references c) ->
  In r (ids pre).
Proof.
  intros Hst Hr.
  apply (resolved_from_sound [] _ pre post c r
           (stack_is_resolved project_root config) Hst Hr).
Qed.

Lemma references_resolve_to_earlier_constructs_witness :
  In "WebACL"
    (ids (take 6 (snd (synth "/repo" prod_config)))).
Proof.
  apply (references_resolve_to_earlier_constructs "/repo" prod_config
           (take 6 (snd (synth "/repo" prod_config)))
           (drop 7 (snd (synth "/repo" prod_config)))
           (Distribution "DistributionWithWAF"
              (distribution_props_of "WebsiteBucket" "OriginAccessIdentity"
                 "SpaFunction" PRICE_CLASS_ALL None VNone
                 (Some [FAttr "WebACL" "attr_arn"])))
           "WebACL").
  - reflexivity.
  - simpl. auto.
Defined.

(** ** Which configurations the constructor accepts *)







(** ** What the constructor does not look at *)

(** X8: the constructor requires [region] and then never uses it: giving it
    another value changes nothing in the stack. *)
Theorem region_value_is_unused (project_root : string)
    (config : gmap string value) (region region' : value) :
  config !! "region" = Some region ->
  synth project_root (<["region" := region']> config) = synth project_root config.
Proof.
  intros Hr.
  assert (Hget : getitem config "region" = Ok region)
    by (unfold getitem; now rewrite Hr).
  unfold synth, stack_init.
  rewrite getitem_insert_eq, Hget.
  rewrite !getitem_insert_ne by discriminate.
  rewrite !get_insert_ne by discriminate.
  reflexivity.
Qed.

Lemma region_value_is_unused_witness :
  synth "/repo" (<["region" := VStr "us-west-2"]> prod_domain_config)
  = synth "/repo" prod_domain_config.
Proof.
  apply (region_value_is_unused "/repo" prod_domain_config (VStr "eu-west-1")).
  reflexivity.
Defined.

(** X9: a key other than the seven the constructor reads ([environment],
    [region], [account], [domain], [hostedZoneId], [hostedZoneName],
    [cloudfront]) has no effect, whatever it holds; [certificateArn] is such a
    key. *)
Theorem unread_key_has_no_effect (project_root : string)
    (config : gmap string value) (key : string) (v : value) :
  ~ In key ["environment"; "region"; "account"; "domain"; "hostedZoneId";
            "hostedZoneName"; "cloudfront"] ->
  synth project_root (<[key := v]> config) = synth project_root config /\
  synth project_root (delete key config) = synth project_root config.
Proof.
  intros Hkey. simpl in Hkey.
  split; apply synth_reads;
    first [ rewrite lookup_insert_ne by intuition congruence
          | rewrite lookup_delete_ne by intuition congruence ];
    reflexivity.
Qed.

Lemma unread_key_has_no_effect_witness :
  synth "/repo"
    (<["certificateArn" := VStr "arn:aws:acm:us-east-1:123456789012:certificate/x"]>
       prod_config)
  = synth "/repo" prod_config.
Proof.
  apply (proj1 (unread_key_has_no_effect "/repo" prod_config "certificateArn"
                  (VStr "arn:aws:acm:us-east-1:123456789012:certificate/x")
                  ltac:(simpl; intuition discriminate))).
Defined.

(** ** Records, deployment and distributions in every environment *)

(** X10: in a stack that was built, the alias records are there exactly when
    the custom domain is: an A and an AAAA record with the same name, in the
    hosted zone, both aimed at the last distribution built; without a custom
    domain there is neither. *)
Theorem alias_records_iff_custom_domain (project_root : string)
    (config : gmap string value) (st : list construct) :
  synth project_root config = (Ok tt, st) ->
  (truthy (get config "domain") = true /\
   truthy (get config "hostedZoneId") = true /\
   truthy (get config "hostedZoneName") = true ->
   exists p,
     a_records st = [("AliasRecordA", p)] /\
     aaaa_records st = [("AliasRecordAAAA", p)] /\
     record_zone p = "HostedZone" /\
     last (map fst (distributions st)) = Some (alias_target p)) /\
  (~ (truthy (get config "domain") = true /\
      truthy (get config "hostedZoneId") = true /\
      truthy (get config "hostedZoneName") = true) ->
   a_records st = [] /\ aaaa_records st = []).
Proof.
  intros H. split.
  - intros (Hd & Hi & Hn). ok_stack H; eexists; now repeat split.
  - intros Hnot.
    destruct (truthy (get config "domain")) eqn:Hd;
      [destruct (truthy (get config "hostedZoneId")) eqn:Hi;
       [destruct (truthy (get config "hostedZoneName")) eqn:Hn;
        [now destruct Hnot|]|]|];
      ok_stack H; now split.
Qed.

Lemma alias_records_iff_custom_domain_witness :
  (exists p,
     a_records (snd (synth "/repo" prod_domain_config)) = [("AliasRecordA", p)] /\
     aaaa_records (snd (synth "/repo" prod_domain_config))
     = [("AliasRecordAAAA", p)]) /\
  a_records (snd (synth "/repo" domain_only_config)) = [].
Proof.
  split.
  - destruct (proj1 (alias_records_iff_custom_domain "/repo" prod_domain_config
                       _ eq_refl))
      as (p & Ha & Haaaa & _); [now repeat split|].
    now exists p.
  - apply (proj2 (alias_records_iff_custom_domain "/repo" domain_only_config
                    _ eq_refl)).
    intros (_ & Hi & _). discriminate Hi.
Defined.

(** X11: in a stack that was built there is one deployment: of the [build]
    directory of the project into the website bucket, without pruning, with
    the invalidation of [/*]; its distribution is the last one built, the one
    the outputs name, and that distribution carries a web ACL exactly when the
    stack has one. *)
Theorem deployment_uses_last_distribution (project_root : string)
    (config : gmap string value) (st : list construct) :
  synth project_root config = (Ok tt, st) ->
  exists distribution props,
    last (distributions st) = Some (distribution, props) /\
    deployments st
    = [("DeployWebsite",
        {| sources := [project_root +:+ "/build"];
           destination_bucket := "WebsiteBucket";
           deployment_distribution := distribution;
           distribution_paths := ["/*"];
           prune := false |})] /\
    output_map st !! "CloudFrontDistributionId"
    = Some [FAttr distribution "distribution_id"] /\
    output_map st !! "CloudFrontDomainName"
    = Some [FAttr distribution "distribution_domain_name"] /\
    (web_acl_id props = None <-> web_acls st = []).
Proof.
  intros H. ok_stack H; eexists _, _;
    (split; [reflexivity|]); repeat (split; [reflexivity|]);
    simpl; split; congruence.
Qed.

Lemma deployment_uses_last_distribution_witness :
  exists distribution props,
    last (distributions (snd (synth "/repo" dev_config)))
    = Some (distribution, props) /\
    deployments (snd (synth "/repo" dev_config))
    = [("DeployWebsite",
        {| sources := ["/repo" +:+ "/build"];
           destination_bucket := "WebsiteBucket";
           deployment_distribution := distribution;
           distribution_paths := ["/*"];
           prune := false |})] /\
    (web_acl_id props = None <-> web_acls (snd (synth "/repo" dev_config)) = []).
Proof.
  destruct (deployment_uses_last_distribution "/repo" dev_config _ eq_refl)
    as (distribution & props & Hlast & Hdep & _ & _ & Hacl).
  now exists distribution, props.
Defined.



(** ** The script [update-config.py] *)

Import UpdateConfig.

Lemma given_true (x : option string) :
  given x = true <-> exists s, x = Some s /\ s <> "".
Proof.
  destruct x as [s|]; simpl.
  - rewrite negb_true_iff, String.eqb_neq. split.
    + intros H. now exists s.
    + now intros (s' & [= <-] & H).
  - split; [discriminate | now intros (s & H & _)].
Qed.

Lemma set_if_given_dict (key : string) (x : option string) (d : gmap string value) :
  set_if_given key x (VDict d)
  = Ok (VDict (if given x then <[key := VStr (default "" x)]> d else d)).
Proof. destruct x as [s|]; simpl; [now destruct (String.eqb s "")|reflexivity]. Qed.

Lemma set_if_given_not_given (key : string) (x : option string) (config : value) :
  given x = false -> set_if_given key x config = Ok config.
Proof. destruct x as [s|]; simpl; [now intros ->|reflexivity]. Qed.

Lemma set_if_given_not_dict (key : string) (x : option string) (config : value) :
  given x = true -> (forall d, config <> VDict d) ->
  set_if_given key x config = Raise TypeError.
Proof.
  destruct x as [s|]; simpl; [|discriminate]. intros -> Hd.
  destruct config; try reflexivity. now destruct (Hd d).
Qed.

(** The document after the three updates, for a dictionary. *)
Lemma updated_config_dict (d : gmap string value)
    (account_id domain certificate_arn : option string) :
  exists d',
    updated_config (VDict d) account_id domain certificate_arn = Ok (VDict d') /\
    (forall key, key <> "account" -> key <> "domain" -> key <> "certificateArn" ->
                 d' !! key = d !! key) /\
    d' !! "account"
    = (if given account_id then VStr <$> account_id else d !! "account") /\
    d' !! "domain" = (if given domain then VStr <$> domain else d !! "domain") /\
    d' !! "certificateArn"
    = (if given certificate_arn then VStr <$> certificate_arn
       else d !! "certificateArn").
Proof.
  unfold updated_config. rewrite !set_if_given_dict.
  eexists. split; [reflexivity|].
  destruct account_id as [a|]; destruct domain as [dom|];
    destruct certificate_arn as [c|]; simpl;
    repeat match goal with
           | |- context [String.eqb ?s ""] => destruct (String.eqb s "")
           end; simpl;
    (split; [intros key H1 H2 H3; now simplify_map_eq|]);
    repeat split; now simplify_map_eq.
Qed.

Lemma update_config_file_on_dict (config_path : string)
    (account_id domain certificate_arn : option string) (w : world)
    (d : gmap string value) :
  files w !! config_path = Some (JsonFile (VDict d)) ->
  exists d',
    update_config_file config_path account_id domain certificate_arn w
    = (true, {| files := <[config_path := JsonFile (VDict d')]> (files w);
                stdout := stdout w ++ [Updated config_path] |}) /\
    (forall key, key <> "account" -> key <> "domain" -> key <> "certificateArn" ->
                 d' !! key = d !! key) /\
    d' !! "account"
    = (if given account_id then VStr <$> account_id else d !! "account") /\
    d' !! "domain" = (if given domain then VStr <$> domain else d !! "domain") /\
    d' !! "certificateArn"
    = (if given certificate_arn then VStr <$> certificate_arn
       else d !! "certificateArn").
Proof.
  intros Hfile.
  destruct (updated_config_dict d account_id domain certificate_arn)
    as (d' & Hupd & Hframe).
  exists d'. split; [|exact Hframe].
  unfold update_config_file. now rewrite Hfile, Hupd.
Qed.

(** X13: on a JSON object [update_config_file] reports a success; it has
    then set [account], [domain] and [certificateArn] to the arguments that
    were given (not [None], not empty), has left every other key of the
    document and every other file as they were, and has printed one line. *)
Theorem update_config_file_writes_three_keys (config_path : string)
    (account_id domain certificate_arn : option string) (w : world)
    (d : gmap string value) :
  files w !! config_path = Some (JsonFile (VDict d)) ->
  exists d',
    update_config_file config_path account_id domain certificate_arn w
    = (true, {| files := <[config_path := JsonFile (VDict d')]> (files w);
                stdout := stdout w ++ [Updated config_path] |}) /\
    (forall key, key <> "account" -> key <> "domain" -> key <> "certificateArn" ->
                 d' !! key = d !! key) /\
    (given account_id = true -> d' !! "account" = VStr <$> account_id) /\
    (given account_id = false -> d' !! "account" = d !! "account") /\
    (given domain = true -> d' !! "domain" = VStr <$> domain) /\
    (given domain = false -> d' !! "domain" = d !! "domain") /\
    (given certificate_arn = true ->
     d' !! "certificateArn" = VStr <$> certificate_arn) /\
    (given certificate_arn = false ->
     d' !! "certificateArn" = d !! "certificateArn").
Proof.
  intros Hfile.
  destruct (update_config_file_on_dict config_path account_id domain
              certificate_arn w d Hfile)
    as (d' & Hrun & Hframe & Ha & Hd & Hc).
  exists d'. split; [exact Hrun|]. split; [exact Hframe|].
  repeat split; intros Hg; rewrite Hg in *; assumption.
Qed.

Lemma update_config_file_writes_three_keys_witness :
  exists d',
    update_config_file "config/dev.json" (Some "123456789012") None (Some "")
      {| files := {["config/dev.json" := JsonFile (VDict dev_config)]};
         stdout := [] |}
    = (true, {| files := <["config/dev.json" := JsonFile (VDict d')]>
                           {["config/dev.json" := JsonFile (VDict dev_config)]};
                stdout := [] ++ [Updated "config/dev.json"] |}) /\
    d' !! "account" = Some (VStr "123456789012") /\
    d' !! "domain" = None.
Proof.
  destruct (update_config_file_writes_three_keys "config/dev.json"
              (Some "123456789012") None (Some "")
              {| files := {["config/dev.json" := JsonFile (VDict dev_config)]};
                 stdout := [] |}
              dev_config)
    as (d' & Hrun & _ & Ha & _ & _ & Hd & _); [reflexivity|].
  exists d'. split; [exact Hrun|]. split; [now apply Ha | now apply Hd].
Defined.

(** X14: [update_config_file] reports a failure exactly when the path holds
    no JSON document, or holds one that is not an object while there is
    something to set; a failure leaves every file as it was. *)
Theorem update_config_file_failure (config_path : string)
    (account_id domain certificate_arn : option string) (w : world) :
  (fst (update_config_file config_path account_id domain certificate_arn w) = false
   <->
   (forall v, files w !! config_path <> Some (JsonFile v)) \/
   (exists v,
      files w !! config_path = Some (JsonFile v) /\ (forall d, v <> VDict d) /\
      given account_id || given domain || given certificate_arn = true)) /\
  (fst (update_config_file config_path account_id domain certificate_arn w) = false ->
   files (snd (update_config_file config_path account_id domain certificate_arn w))
   = files w).
Proof.
  unfold update_config_file.
  destruct (files w !! config_path) as [[v|]|] eqn:Hfile.
  - destruct (updated_config v account_id domain certificate_arn) as [v'|e] eqn:Hupd;
      simpl.
    + split; [|discriminate]. split; [discriminate|].
      intros [H | (v0 & [= <-] & Hnd & Hgiven)]; [now destruct (H v)|].
      exfalso. revert Hupd. unfold updated_config.
      destruct (given account_id) eqn:Ha.
      { now rewrite (set_if_given_not_dict _ _ _ Ha Hnd). }
      rewrite (set_if_given_not_given _ _ _ Ha).
      destruct (given domain) eqn:Hd.
      { now rewrite (set_if_given_not_dict _ _ _ Hd Hnd). }
      rewrite (set_if_given_not_given _ _ _ Hd).
      simpl in Hgiven.
      now rewrite (set_if_given_not_dict _ _ _ Hgiven Hnd).
    + split; [|reflexivity]. split; [intros _ | reflexivity].
      right. exists v. split; [reflexivity|].
      assert (Hnd : forall d, v <> VDict d).
      { intros d ->.
        destruct (updated_config_dict d account_id domain certificate_arn)
          as (d' & Hd' & _).
        congruence. }
      split; [exact Hnd|].
      destruct (given account_id) eqn:Ha; [reflexivity|].
      destruct (given domain) eqn:Hd; [reflexivity|].
      destruct (given certificate_arn) eqn:Hc; [reflexivity|].
      exfalso. revert Hupd. unfold updated_config.
      now rewrite !set_if_given_not_given.
  - simpl. split; [|reflexivity]. split; [intros _ | reflexivity].
    left. congruence.
  - simpl. split; [|reflexivity]. split; [intros _ | reflexivity].
    left. congruence.
Qed.

Lemma update_config_file_failure_witness :
  files (snd (update_config_file "config/dev.json" (Some "123456789012") None None
                {| files := {["config/dev.json" := JsonFile (VList [])]};
                   stdout := [] |}))
  = {["config/dev.json" := JsonFile (VList [])]}.
Proof.
  pose proof (proj2 (update_config_file_failure "config/dev.json"
                       (Some "123456789012") None None
                       {| files := {["config/dev.json" := JsonFile (VList [])]};
                          stdout := [] |})) as H.
  apply H. reflexivity.
Defined.

Lemma updated_config_again (config config' : value)
    (account_id domain certificate_arn : option string) :
  updated_config config account_id domain certificate_arn = Ok config' ->
  updated_config config' account_id domain certificate_arn = Ok config'.
Proof.
  destruct (given account_id || given domain || given certificate_arn) eqn:Hany.
  - destruct config as [| | | | |d];
      try (unfold updated_config;
           destruct (given account_id) eqn:Ha;
           [now rewrite (set_if_given_not_dict _ _ _ Ha) by discriminate|];
           rewrite (set_if_given_not_given _ _ _ Ha);
           destruct (given domain) eqn:Hd;
           [now rewrite (set_if_given_not_dict _ _ _ Hd) by discriminate|];
           rewrite (set_if_given_not_given _ _ _ Hd);
           simpl in Hany;
           now rewrite (set_if_given_not_dict _ _ _ Hany) by discriminate).
    unfold updated_config. rewrite !set_if_given_dict. intros [= <-].
    rewrite !set_if_given_dict. do 2 f_equal.
    apply map_eq. intros key.
    destruct (given account_id), (given domain), (given certificate_arn);
      destruct (decide (key = "account")) as [H1|H1];
      destruct (decide (key = "domain")) as [H2|H2];
      destruct (decide (key = "certificateArn")) as [H3|H3];
      try congruence; subst; now simplify_map_eq.
  - apply orb_false_iff in Hany as [Hany Hc].
    apply orb_false_iff in Hany as [Ha Hd].
    unfold updated_config. rewrite !set_if_given_not_given by assumption.
    intros [= <-]. rewrite ?set_if_given_not_given by assumption. reflexivity.
Qed.

(** X15: updating a file a second time with the same arguments changes no
    file. *)
Theorem update_config_file_idempotent (config_path : string)
    (account_id domain certificate_arn : option string) (w : world) :
  files (snd (update_config_file config_path account_id domain certificate_arn
                (snd (update_config_file config_path account_id domain
                        certificate_arn w))))
  = files (snd (update_config_file config_path account_id domain
                  certificate_arn w)).
Proof.
  unfold update_config_file at 2 3.
  destruct (files w !! config_path) as [[v|]|] eqn:Hfile.
  - destruct (updated_config v account_id domain certificate_arn) as [v'|e] eqn:Hupd.
    + unfold update_config_file; simpl.
      rewrite lookup_insert_eq.
      rewrite (updated_config_again _ _ _ _ _ Hupd). simpl.
      now rewrite insert_insert_eq.
    + unfold update_config_file; simpl. rewrite Hfile, Hupd. reflexivity.
  - unfold update_config_file; simpl. now rewrite Hfile.
  - unfold update_config_file; simpl. now rewrite Hfile.
Qed.

(** The two configuration paths are different. *)
Lemma config_paths_differ (script_dir : string) :
  dev_config_path script_dir <> prod_config_path script_dir.
Proof.
  unfold dev_config_path, prod_config_path.
  induction script_dir as [|c s IH].
  - discriminate.
  - rewrite !StrFacts.app_cons. intros [= H]. now apply IH.
Qed.

Lemma update_config_file_other_path (config_path path : string)
    (account_id domain certificate_arn : option string) (w : world) :
  path <> config_path ->
  files (snd (update_config_file config_path account_id domain certificate_arn w))
    !! path
  = files w !! path.
Proof.
  intros Hne. unfold update_config_file.
  destruct (files w !! config_path) as [[v|]|]; try reflexivity.
  destruct (updated_config v account_id domain certificate_arn); simpl;
    [now rewrite lookup_insert_ne | reflexivity].
Qed.

Lemma update_config_file_keeps_paths (config_path path : string)
    (account_id domain certificate_arn : option string) (w : world) :
  is_Some (files (snd (update_config_file config_path account_id domain
                         certificate_arn w)) !! path)
  <-> is_Some (files w !! path).
Proof.
  destruct (decide (path = config_path)) as [->|Hne].
  - unfold update_config_file.
    destruct (files w !! config_path) as [[v|]|] eqn:Hfile;
      try (simpl; now rewrite Hfile).
    destruct (updated_config v account_id domain certificate_arn); simpl.
    + rewrite lookup_insert_eq. split; eauto.
    + now rewrite Hfile.
  - now rewrite update_config_file_other_path.
Qed.

(** X16: without an account id, none on the command line and none from STS,
    [main] writes nothing. *)
Theorem main_without_account_writes_nothing (script_dir : string)
    (caller_identity : option string) (args : arguments) (w : world) :
  given (account_id args) = false ->
  given caller_identity = false ->
  files (main script_dir caller_identity args w) = files w.
Proof.
  intros Hargs Hsts. unfold main. rewrite Hargs.
  destruct caller_identity as [a|]; simpl in *.
  - apply negb_false_iff in Hsts. now rewrite Hsts.
  - reflexivity.
Qed.

Lemma main_without_account_writes_nothing_witness :
  files (main "/repo/infrastructure" None
           (Args None (Some "www.example.com") None None None)
           {| files := {["/repo/infrastructure/config/dev.json" :=
                           JsonFile (VDict dev_config)]};
              stdout := [] |})
  = {["/repo/infrastructure/config/dev.json" := JsonFile (VDict dev_config)]}.
Proof.
  pose proof (main_without_account_writes_nothing "/repo/infrastructure" None
                (Args None (Some "www.example.com") None None None)
                {| files := {["/repo/infrastructure/config/dev.json" :=
                                JsonFile (VDict dev_config)]};
                   stdout := [] |}) as H.
  apply H; reflexivity.
Defined.

(** X17: [main] creates no file and deletes none, and it leaves every file
    but [config/dev.json] and [config/prod.json] as it was. *)
Theorem main_touches_only_the_two_configs (script_dir : string)
    (caller_identity : option string) (args : arguments) (w : world)
    (path : string) :
  (is_Some (files (main script_dir caller_identity args w) !! path)
   <-> is_Some (files w !! path)) /\
  (path <> dev_config_path script_dir -> path <> prod_config_path script_dir ->
   files (main script_dir caller_identity args w) !! path = files w !! path).
Proof.
  unfold main.
  set (resolved := if given (account_id args) then (account_id args, w)
                   else get_aws_account_id caller_identity w).
  assert (Hw : files (snd resolved) = files w).
  { subst resolved. destruct (given (account_id args)); [reflexivity|].
    now destruct caller_identity. }
  destruct resolved as [[a|] w0]; simpl in Hw; [|now rewrite <- Hw].
  destruct (negb (String.eqb a "")); [|now rewrite <- Hw].
  rewrite <- Hw. clear Hw.
  change (files (print (UsingAccount a) w0)) with (files w0).
  set (w1 := print (UsingAccount a) w0).
  assert (H1 : files w1 = files w0) by reflexivity.
  rewrite <- H1. clearbody w1. clear H1.
  destruct (files w1 !! dev_config_path script_dir) eqn:Hdev;
    match goal with
    | |- context [files ?w2 !! prod_config_path script_dir] =>
        destruct (files w2 !! prod_config_path script_dir) eqn:Hprod
    end;
    cbn [print files];
    (split;
     [ rewrite ?update_config_file_keeps_paths; reflexivity
     | intros Hd Hp;
       rewrite ?update_config_file_other_path by assumption; reflexivity ]).
Qed.

Lemma main_touches_only_the_two_configs_witness :
  files (main "/repo/infrastructure" (Some "123456789012")
           (Args None None None None None)
           {| files := {["/repo/infrastructure/config/dev.json" :=
                           JsonFile (VDict dev_config)]};
              stdout := [] |})
    !! "/repo/README.md"
  = None.
Proof.
  pose proof (proj2 (main_touches_only_the_two_configs "/repo/infrastructure"
                       (Some "123456789012") (Args None None None None None)
                       {| files := {["/repo/infrastructure/config/dev.json" :=
                                       JsonFile (VDict dev_config)]};
                          stdout := [] |}
                       "/repo/README.md")) as H.
  rewrite H; [reflexivity | discriminate | discriminate].
Defined.

(** X18: when an account id is at hand, [main] writes it into both
    configuration files that are JSON objects; the domain of [dev.json] comes
    from [--dev-domain] alone and that of [prod.json] from [--prod-domain]
    alone, and a domain that is not given leaves the one of the file. *)
Theorem main_updates_both_configs (script_dir : string)
    (caller_identity : option string) (args : arguments) (w : world)
    (account : string) :
  (if given (account_id args) then account_id args else caller_identity)
  = Some account ->
  account <> "" ->
  (forall d,
     files w !! dev_config_path script_dir = Some (JsonFile (VDict d)) ->
     exists d',
       files (main script_dir caller_identity args w)
         !! dev_config_path script_dir = Some (JsonFile (VDict d')) /\
       d' !! "account" = Some (VStr account) /\
       d' !! "domain"
       = (if given (dev_domain args) then VStr <$> dev_domain args
          else d !! "domain")) /\
  (forall d,
     files w !! prod_config_path script_dir = Some (JsonFile (VDict d)) ->
     exists d',
       files (main script_dir caller_identity args w)
         !! prod_config_path script_dir = Some (JsonFile (VDict d')) /\
       d' !! "account" = Some (VStr account) /\
       d' !! "domain"
       = (if given (prod_domain args) then VStr <$> prod_domain args
          else d !! "domain")).
Proof.
  intros Hacc Hne. unfold main.
  set (resolved := if given (account_id args) then (account_id args, w)
                   else get_aws_account_id caller_identity w).
  assert (Hw : files (snd resolved) = files w /\ fst resolved = Some account).
  { subst resolved. destruct (given (account_id args)); [now split|].
    subst caller_identity. now split. }
  destruct resolved as [a w0]; simpl in Hw. destruct Hw as [Hw ->].
  apply String.eqb_neq in Hne. rewrite Hne. simpl negb. cbv iota.
  rewrite <- Hw. clear Hw.
  change (files w0) with (files (print (UsingAccount account) w0)).
  set (w1 := print (UsingAccount account) w0). clearbody w1.
  assert (Hgiven : given (Some account) = true) by (simpl; now rewrite Hne).
  pose proof (config_paths_differ script_dir) as Hpaths.
  split; intros d Hfile.
  - destruct (update_config_file_on_dict (dev_config_path script_dir)
                (Some account) (dev_domain args) (dev_certificate args) w1 d Hfile)
      as (d' & Hrun & _ & Ha & Hd & _).
    exists d'. rewrite Hgiven in Ha. split; [|now split].
    rewrite Hfile, Hrun. cbn [snd files].
    match goal with
    | |- context [match ?x with Some _ => _ | None => _ end] => destruct x
    end; cbn [print files];
      rewrite ?update_config_file_other_path by assumption;
      cbn [files]; now rewrite lookup_insert_eq.
  - set (w2 := match files w1 !! dev_config_path script_dir with
               | Some _ =>
                   snd (update_config_file (dev_config_path script_dir)
                          (Some account) (dev_domain args) (dev_certificate args) w1)
               | None => w1
               end).
    assert (Hfile2 : files w2 !! prod_config_path script_dir
                     = Some (JsonFile (VDict d))).
    { subst w2. destruct (files w1 !! dev_config_path script_dir);
        [rewrite update_config_file_other_path by congruence|]; exact Hfile. }
    clearbody w2.
    destruct (update_config_file_on_dict (prod_config_path script_dir)
                (Some account) (prod_domain args) (prod_certificate args) w2 d
                Hfile2)
      as (d' & Hrun & _ & Ha & Hd & _).
    exists d'. rewrite Hgiven in Ha. split; [|now split].
    rewrite Hfile2, Hrun. cbn [snd files print]. now rewrite lookup_insert_eq.
Qed.

Lemma main_updates_both_configs_witness :
  exists d',
    files (main "/repo/infrastructure" (Some "123456789012")
             (Args None None (Some "www.example.com") None None)
             {| files := {["/repo/infrastructure/config/dev.json" :=
                             JsonFile (VDict dev_config)]};
                stdout := [] |})
      !! dev_config_path "/repo/infrastructure" = Some (JsonFile (VDict d')) /\
    d' !! "account" = Some (VStr "123456789012") /\
    d' !! "domain" = None.
Proof.
  pose proof (proj1 (main_updates_both_configs "/repo/infrastructure"
                       (Some "123456789012")
                       (Args None None (Some "www.example.com") None None)
                       {| files := {["/repo/infrastructure/config/dev.json" :=
                                       JsonFile (VDict dev_config)]};
                          stdout := [] |}
                       "123456789012" eq_refl ltac:(discriminate))
                dev_config) as H.
  apply H. reflexivity.
Defined.

Lemma update_config_file_stdout (config_path : string)
    (account_id domain certificate_arn : option string) (w : world) :
  exists l,
    stdout (snd (update_config_file config_path account_id domain
                   certificate_arn w)) = stdout w ++ [l] /\
    (fst (update_config_file config_path account_id domain certificate_arn w)
     = false -> l = ErrorUpdating config_path).
Proof.
  unfold update_config_file.
  destruct (files w !! config_path) as [[v|]|]; simpl; eauto.
  destruct (updated_config v account_id domain certificate_arn); simpl; eauto.
  eexists. split; [reflexivity | discriminate].
Qed.

(** X19: with an account id at hand, [main] ends on the lines that say the
    configuration files were updated, also when an update has just failed:
    for a [dev.json] that is no JSON document, the error line of the update
    is printed, and the closing lines all the same. *)
Theorem main_reports_success_after_a_failure (script_dir : string)
    (caller_identity : option string) (args : arguments) (w : world)
    (account : string) :
  (if given (account_id args) then account_id args else caller_identity)
  = Some account ->
  account <> "" ->
  files w !! dev_config_path script_dir = Some NotJson ->
  In (ErrorUpdating (dev_config_path script_dir))
    (stdout (main script_dir caller_identity args w)) /\
  last (stdout (main script_dir caller_identity args w))
  = Some ConfigurationFilesUpdated /\
  files (main script_dir caller_identity args w) !! dev_config_path script_dir
  = Some NotJson.
Proof.
  intros Hacc Hne Hfile. unfold main.
  set (resolved := if given (account_id args) then (account_id args, w)
                   else get_aws_account_id caller_identity w).
  assert (Hw : files (snd resolved) = files w /\ fst resolved = Some account).
  { subst resolved. destruct (given (account_id args)); [now split|].
    subst caller_identity. now split. }
  destruct resolved as [a w0]; simpl in Hw. destruct Hw as [Hw ->].
  apply String.eqb_neq in Hne. rewrite Hne. simpl negb. cbv iota.
  rewrite <- Hw in Hfile. clear Hw.
  change (files w0) with (files (print (UsingAccount account) w0)) in Hfile.
  set (w1 := print (UsingAccount account) w0) in *. clearbody w1.
  rewrite Hfile.
  set (w2 := snd (update_config_file (dev_config_path script_dir) (Some account)
                    (dev_domain args) (dev_certificate args) w1)).
  assert (H2 : stdout w2 = stdout w1 ++ [ErrorUpdating (dev_config_path script_dir)]
               /\ files w2 = files w1).
  { subst w2. unfold update_config_file. now rewrite Hfile. }
  destruct H2 as [Hout2 Hfiles2]. clearbody w2.
  pose proof (config_paths_differ script_dir) as Hpaths.
  destruct (files w2 !! prod_config_path script_dir).
  - destruct (update_config_file_stdout (prod_config_path script_dir)
                (Some account) (prod_domain args) (prod_certificate args) w2)
      as (l & Hout3 & _).
    cbn [print stdout files]. rewrite Hout3, Hout2.
    rewrite update_config_file_other_path by congruence.
    rewrite Hfiles2. split; [|split; [|exact Hfile]].
    + apply in_or_app. left. apply in_or_app. left.
      apply in_or_app. right. now left.
    + apply last_snoc.
  - cbn [print stdout files]. rewrite Hout2, Hfiles2.
    split; [|split; [|exact Hfile]].
    + apply in_or_app. left. apply in_or_app. right. now left.
    + apply last_snoc.
Qed.

Lemma main_reports_success_after_a_failure_witness :
  last (stdout (main "/repo/infrastructure" (Some "123456789012")
                  (Args None None None None None)
                  {| files := {["/repo/infrastructure/config/dev.json" := NotJson]};
                     stdout := [] |}))
  = Some ConfigurationFilesUpdated.
Proof.
  pose proof (main_reports_success_after_a_failure "/repo/infrastructure"
                (Some "123456789012") (Args None None None None None)
                {| files := {["/repo/infrastructure/config/dev.json" := NotJson]};
                   stdout := [] |}
                "123456789012" eq_refl ltac:(discriminate)) as H.
  apply H. reflexivity.
Defined.

(** ** The script and the stack *)

(** No custom domain, no certificate, zone or record, in any stack. *)
Lemma no_custom_domain_constructs (project_root : string)
    (config : gmap string value) :
  truthy (get config "domain") && truthy (get config "hostedZoneId")
    && truthy (get config "hostedZoneName") = false ->
  certificates (snd (synth project_root config)) = [] /\
  hosted_zones (snd (synth project_root config)) = [] /\
  a_records (snd (synth project_root config)) = [] /\
  aaaa_records (snd (synth project_root config)) = [].
Proof.
  intros H.
  destruct (truthy (get config "domain")) eqn:Hd;
    [destruct (truthy (get config "hostedZoneId")) eqn:Hi;
     [destruct (truthy (get config "hostedZoneName")) eqn:Hn;
      [discriminate H|]|]|];
    split_stack; now repeat split.
Qed.

(** X20: the script cannot turn the custom domain on.  It sets [domain] but
    neither [hostedZoneId] nor [hostedZoneName]; on a configuration without
    one of these, whatever the script is given, the stack built from the
    updated configuration has no certificate, hosted zone or alias record. *)
Theorem script_cannot_enable_custom_domain (project_root : string)
    (d d' : gmap string value) (account_id domain certificate_arn : option string) :
  updated_config (VDict d) account_id domain certificate_arn = Ok (VDict d') ->
  truthy (get d "hostedZoneId") && truthy (get d "hostedZoneName") = false ->
  certificates (snd (synth project_root d')) = [] /\
  hosted_zones (snd (synth project_root d')) = [] /\
  a_records (snd (synth project_root d')) = [] /\
  aaaa_records (snd (synth project_root d')) = [].
Proof.
  intros Hupd Hzone.
  destruct (updated_config_dict d account_id domain certificate_arn)
    as (d0 & Hupd0 & Hframe & _).
  assert (d0 = d') as -> by congruence.
  apply no_custom_domain_constructs.
  unfold get in *.
  rewrite (Hframe "hostedZoneId"), (Hframe "hostedZoneName") by discriminate.
  apply andb_false_iff in Hzone as [Hz | Hz]; rewrite Hz;
    now rewrite ?andb_false_r.
Qed.

Lemma script_cannot_enable_custom_domain_witness :
  certificates
    (snd (synth "/repo"
            (<["domain" := VStr "www.example.com"]>
               (<["account" := VStr "123456789012"]> dev_config)))) = [].
Proof.
  pose proof (script_cannot_enable_custom_domain "/repo" dev_config
                (<["domain" := VStr "www.example.com"]>
                   (<["account" := VStr "123456789012"]> dev_config))
                (Some "123456789012") (Some "www.example.com") None) as H.
  apply H; reflexivity.
Defined.

(** X21: the certificate ARN the script writes is of no consequence: the
    stack built from the updated configuration is the one built from the
    configuration updated without [--dev-certificate] or
    [--prod-certificate]. *)
Theorem certificate_arn_changes_no_stack (project_root : string)
    (d : gmap string value) (account_id domain certificate_arn : option string) :
  exists d' d'',
    updated_config (VDict d) account_id domain certificate_arn = Ok (VDict d') /\
    updated_config (VDict d) account_id domain None = Ok (VDict d'') /\
    synth project_root d' = synth project_root d''.
Proof.
  destruct (updated_config_dict d account_id domain certificate_arn)
    as (d' & Hupd' & Hframe' & Ha' & Hd' & _).
  destruct (updated_config_dict d account_id domain None)
    as (d'' & Hupd'' & Hframe'' & Ha'' & Hd'' & _).
  exists d', d''. split; [exact Hupd'|]. split; [exact Hupd''|].
  apply synth_reads;
    rewrite ?Ha', ?Ha'', ?Hd', ?Hd'', ?Hframe', ?Hframe'' by discriminate;
    reflexivity.
Qed.

(** ** The application [app.py] *)



(** X23: an [environment] that is not a string makes [main] fail with an
    [AttributeError] on [title], before the stack is constructed, whatever
    else the file holds. *)
Theorem app_main_needs_a_string_environment (project_root : string)
    (fs : gmap string file) (config : gmap string value) (environment : value) :
  fs !! "config/dev.json" = Some (JsonFile (VDict config)) ->
  config !! "environment" = Some environment ->
  (forall s, environment <> VStr s) ->
  App.main project_root fs = App.Failed (App.Exception (AttributeError "title")).
Proof.
  intros Hfile He Hs. unfold App.main, App.load_config.
  change ("config/" +:+ "dev" +:+ ".json") with "config/dev.json".
  rewrite Hfile. unfold App.python at 1. unfold subscript, getitem. rewrite He.
  destruct environment; try reflexivity. now destruct (Hs s).
Qed.

Lemma app_main_needs_a_string_environment_witness :
  App.main "/repo"
    {["config/dev.json" :=
        JsonFile (VDict (<["environment" := VInt 1]> dev_config))]}
  = App.Failed (App.Exception (AttributeError "title")).
Proof.
  apply (app_main_needs_a_string_environment "/repo" _
           (<["environment" := VInt 1]> dev_config) (VInt 1));
    [reflexivity | reflexivity | discriminate].
Defined.
